(** * Telemetry metrics endpoint (api/index.py)

    A shallow embedding of the FastAPI handler [get_metrics] of
    [api/index.py], of the loading of its table and of the library calls
    it makes, followed by the properties of the mapping it returns.

    Number model.  The program computes on IEEE doubles.  Every finite
    double is a rational number and comparisons of doubles are exact, so
    the table, the threshold and every reported value are modelled in [Q]
    (NaN and the infinities are not represented).  The arithmetic of
    [mean], [np.percentile] and [round] is written with the exact rational
    operations, where the libraries round after every operation: the
    values of [avg_latency], [p95_latency] and [avg_uptime] in the model
    are those of the program only where that rounding does not show, as on
    the concrete scenario below.  The properties proved here are about
    which regions are reported, with which fields, and about the count
    [breaches], none of which depends on that arithmetic.  Values of [Q]
    are compared with [==]. *)

From Stdlib Require Import QArith Qround Qminmax Lqa Lia ZArith.
From Stdlib Require Import Sorting.Sorted Sorting.Permutation.
From stdpp Require Import gmap strings list fin_maps.

Local Open Scope Q_scope.

(** ** Numbers: comparisons, sums, rounding *)

Module Num.

(** [x > y] on numbers, as a boolean (one cell of [series > threshold]). *)
Definition Qgtb (x y : Q) : bool :=
  match Qcompare x y with
  | Gt => true
  | _ => false
  end.

(** [np.rint]: the nearest integer, ties to the even one. *)
Definition rint (x : Q) : Z :=
  let f := Qfloor x in
  match Qcompare (x - inject_Z f) (1 # 2) with
  | Lt => f
  | Gt => (f + 1)%Z
  | Eq => if Z.even f then f else (f + 1)%Z
  end.

(** [round(x, ndigits)] on a numpy double: [rint(x * 10**ndigits) /
    10**ndigits]. *)
Definition py_round (x : Q) (ndigits : nat) : Q :=
  let scale := inject_Z (10 ^ Z.of_nat ndigits) in
  inject_Z (rint (x * scale)) / scale.

End Num.

(** ** Series: one column of a data frame *)

Module Series.

Import Num.

(** [series.sum()] *)
Fixpoint sum (s : list Q) : Q :=
  match s with
  | [] => 0
  | x :: s' => x + sum s'
  end.

(** [series.mean()]: the sum over the number of values. *)
Definition mean (s : list Q) : Q :=
  sum s / inject_Z (Z.of_nat (length s)).

(** [series > t]: the boolean series of the cells above [t]. *)
Definition gt (s : list Q) (t : Q) : list bool :=
  map (fun x => Qgtb x t) s.

(** [mask.sum()]: [True] counts as one. *)
Fixpoint bool_sum (mask : list bool) : nat :=
  match mask with
  | [] => O
  | b :: mask' => ((if b then 1 else 0) + bool_sum mask')%nat
  end.

End Series.

(** ** [np.percentile] with the default (linear) method *)

Module Np.

(** Ascending sort of the values (insertion sort). *)
Fixpoint insert_sorted (x : Q) (l : list Q) : list Q :=
  match l with
  | [] => [x]
  | y :: l' => if Qle_bool x y then x :: l else y :: insert_sorted x l'
  end.

Fixpoint sort (a : list Q) : list Q :=
  match a with
  | [] => []
  | x :: a' => insert_sorted x (sort a')
  end.

(** [_lerp a b t]: [a + (b - a) * t], computed from the right end when
    [t >= 0.5]. *)
Definition lerp (a b t : Q) : Q :=
  if Qle_bool (1 # 2) t then b - (b - a) * (1 - t) else a + (b - a) * t.

(** [arr[i]] with Python's indexing: a negative index counts from the
    end. *)
Definition item (arr : list Q) (i : Z) : Q :=
  let n := Z.of_nat (length arr) in
  nth (Z.to_nat (if (i <? 0)%Z then (n + i)%Z else i)) arr 0.

(** [np.percentile(a, q)], method 'linear': on the sorted values, the
    virtual index is [(n - 1) * q / 100]; the two neighbours are the
    elements at its floor and at the next index (both the last element,
    index [-1], when the virtual index reaches [n - 1]; both the first when
    it is negative), and the result interpolates between them by the
    distance of the virtual index to the previous index. *)
Definition percentile (a : list Q) (q : Q) : Q :=
  let arr := sort a in
  let n := Z.of_nat (length arr) in
  let virtual_index := inject_Z (n - 1) * (q / 100) in
  let above := Qle_bool (inject_Z (n - 1)) virtual_index in
  let below := Num.Qgtb 0 virtual_index in
  let bound i := if below then 0%Z else if above then (-1)%Z else i in
  let previous_index := bound (Qfloor virtual_index) in
  let next_index := bound (Qfloor virtual_index + 1)%Z in
  let gamma := virtual_index - inject_Z previous_index in
  lerp (item arr previous_index) (item arr next_index) gamma.

End Np.

(** ** The telemetry table, the request and the response *)

(** One row of [TELEMETRY_DF] after loading: [latency] and [uptime] are
    numeric ([dropna] removed the rows where they were not). *)
Record Row := mkRow { region : string; latency : Q; uptime : Q }.

(** [RequestBody], the validated body of a request. *)
Record RequestBody := mkRequestBody {
  regions : list string;
  threshold_ms : Q
}.

(** What a top-level key of the returned dict is bound to: the message of
    the error object, or the statistics dict of a region. *)
Inductive pyval :=
  | PyStr (s : string)
  | PyDict (d : gmap string Q).

(** Events of one run, recorded in order: the framework called the
    handler; the handler's loop started an iteration. *)
Inductive event :=
  | EvHandler (data : RequestBody)
  | EvRegion (r : string).

(** The process: the module-level table and the record of events. *)
Record World := mkWorld {
  TELEMETRY_DF : list Row;
  log : list event
}.

(** Computations that read and write the process state. *)
Definition M (A : Type) : Type := World -> A * World.

#[export] Instance M_ret : MRet M := fun A x w => (x, w).
#[export] Instance M_bind : MBind M := fun A B f m w =>
  let '(x, w') := m w in f x w'.

(** The process after [events] have been recorded. *)
Definition record (w : World) (events : list event) : World :=
  {| TELEMETRY_DF := TELEMETRY_DF w; log := log w ++ events |}.

(** Reading the global [TELEMETRY_DF]. *)
Definition read_df : M (list Row) := fun w => (TELEMETRY_DF w, w).

(** Recording one event. *)
Definition tell (e : event) : M unit := fun w => (tt, record w [e]).

(** [for x in l: s = body(s, x)] *)
Fixpoint for_each {A S : Type} (body : S -> A -> M S) (l : list A) (s : S)
  : M S :=
  match l with
  | [] => mret s
  | x :: l' => s' ← body s x; for_each body l' s'
  end.

(** [df.empty] *)
Definition df_empty (df : list Row) : bool :=
  match df with
  | [] => true
  | _ :: _ => false
  end.

(** [df[df['region'] == r]] *)
Definition df_region (df : list Row) (r : string) : list Row :=
  filter (fun row => region row = r) df.

(** ** The handler [get_metrics] *)

(** Lines 78-96: the statistics dict of a non-empty [region_df]. *)
Definition region_stats (region_df : list Row) (threshold : Q)
  : gmap string Q :=
  let avg_latency := Series.mean (latency <$> region_df) in
  let p95_latency := Np.percentile (latency <$> region_df) 95 in
  let avg_uptime := Series.mean (uptime <$> region_df) in
  let breaches :=
    Series.bool_sum (Series.gt (latency <$> region_df) threshold) in
  {[ "avg_latency" := Num.py_round avg_latency 3;
     "p95_latency" := Num.py_round p95_latency 3;
     "avg_uptime" := Num.py_round avg_uptime 3;
     "breaches" := inject_Z (Z.of_nat breaches) ]}.

(** Lines 67-96: one iteration of the loop over [data.regions]. *)
Definition loop_body (data : RequestBody)
  (metrics_result : gmap string (gmap string Q)) (r : string)
  : M (gmap string (gmap string Q)) :=
  tell (EvRegion r);;
  df ← read_df;
  let region_df := df_region df r in
  if df_empty region_df then mret metrics_result
  else mret (<[r := region_stats region_df (threshold_ms data)]> metrics_result).

Definition error_message : string := "Telemetry data could not be loaded.".

Definition get_metrics (data : RequestBody) : M (gmap string pyval) :=
  let metrics_result : gmap string (gmap string Q) := ∅ in
  df ← read_df;
  if df_empty df then mret {[ "error" := PyStr error_message ]}
  else
    metrics_result ← for_each (loop_body data) (regions data) metrics_result;
    mret (PyDict <$> metrics_result).

(** ** The endpoint [POST /api] *)

(** The JSON body of a request, once it has the shape of [RequestBody]
    (a list of strings and a number); the constraints of the fields are
    not checked yet. *)
Record RawBody := mkRawBody {
  raw_regions : list string;
  raw_threshold_ms : Q
}.

(** Validation of the body by the model class: [threshold_ms] is declared
    [Field(..., gt=0)]. *)
Definition RequestBody_validate (raw : RawBody) : option RequestBody :=
  if Num.Qgtb (raw_threshold_ms raw) 0
  then Some {| regions := raw_regions raw;
               threshold_ms := raw_threshold_ms raw |}
  else None.

(** Whether a value has the declared return type of the handler,
    [Dict[str, Dict[str, float]]]. *)
Definition is_dict (v : pyval) : bool :=
  match v with
  | PyDict _ => true
  | PyStr _ => false
  end.

Definition has_return_type (body : gmap string pyval) : bool :=
  forallb (fun kv => is_dict (snd kv)) (map_to_list body).

(** What the client receives: the returned dict (status 200), a
    validation error for the request (422), or a server error (500). *)
Inductive http_response :=
  | Http200 (body : gmap string pyval)
  | Http422
  | Http500.

(** The route [@app.post("/api")]: the framework validates the body
    against [RequestBody] and only then calls the handler; it takes the
    handler's return annotation as the response model, and a returned
    value that does not validate against it is answered with a server
    error. *)
Definition post_api (raw : RawBody) : M http_response :=
  match RequestBody_validate raw with
  | None => mret Http422
  | Some data =>
      tell (EvHandler data);;
      body ← get_metrics data;
      if has_return_type body then mret (Http200 body) else mret Http500
  end.

(** ** Readers of the result *)

(** The statistics dict bound to [r], if any. *)
Definition entry (body : gmap string pyval) (r : string)
  : option (gmap string Q) :=
  match body !! r with
  | Some (PyDict d) => Some d
  | _ => None
  end.

(** The dict [d] binds [k] to the number [x]. *)
Definition field (d : gmap string Q) (k : string) (x : Q) : Prop :=
  exists v, d !! k = Some v /\ v == x.

(** The names of the four statistics. *)
Definition stat_names : gset string :=
  {[ "avg_latency"; "p95_latency"; "avg_uptime"; "breaches" ]}.

(** [x < y] on numbers is decidable. *)
#[export] Instance Qlt_decision (x y : Q) : Decision (x < y) :=
  match Qlt_le_dec x y with
  | left H => left H
  | right H => right (Qle_not_lt _ _ H)
  end.

(** The number of rows of [rows] whose latency is strictly above [t]. *)
Definition spec_breaches (rows : list Row) (t : Q) : nat :=
  length (filter (fun row => t < latency row) rows).

(** The table of the concrete scenario. *)
Definition scenario_table : list Row :=
  [ mkRow "amer" 100 (999 # 10);
    mkRow "amer" 300 (995 # 10);
    mkRow "emea" 50 100 ].

Definition scenario_query : RequestBody :=
  mkRequestBody ["amer"; "emea"; "apac"] 150.

(** The mapping the loop of [get_metrics] builds from [metrics_result]
    over the table [df], as a function of the requested labels. *)
Definition loop_result (df : list Row) (threshold : Q) (rs : list string)
  (metrics_result : gmap string (gmap string Q))
  : gmap string (gmap string Q) :=
  fold_left
    (fun m r =>
       if df_empty (df_region df r) then m
       else <[r := region_stats (df_region df r) threshold]> m)
    rs metrics_result.

(** The number reported for the label [r] under the statistic [k]. *)
Definition reported (body : gmap string pyval) (r k : string) : option Q :=
  d ← entry body r; d !! k.

(** A process whose table failed to load. *)
Definition unloaded : World := mkWorld [] [].

(** ** Loading the table at startup (lines 19-36) *)

(** One line of the data file as [pd.read_json(..., lines=True)] returns
    it: the label, and for each of the two columns the cell of the line,
    if the line has that key ([None]: the key is absent).  What a cell can
    hold is left open ([cell]).  The labels are those of a region column
    that holds strings. *)
Record Line (cell : Type) := mkLine {
  line_region : string;
  line_latency : option cell;
  line_uptime : option cell
}.
Arguments mkLine {cell}.
Arguments line_region {cell}.
Arguments line_latency {cell}.
Arguments line_uptime {cell}.

(** What the [try] block meets: the file is not there
    ([FileNotFoundError]); reading it raises another exception, with text
    [e]; or the file is read into a frame. *)
Inductive source (cell : Type) :=
  | Missing
  | Malformed (e : string)
  | Lines (frame : list (Line cell)).
Arguments Missing {cell}.
Arguments Malformed {cell}.
Arguments Lines {cell}.

(** A row once both columns went through [pd.to_numeric(...,
    errors='coerce')]: a cell that could not be converted is NaN
    ([None]). *)
Record NumRow := mkNumRow {
  num_region : string;
  num_latency : option Q;
  num_uptime : option Q
}.

(** The frame has the column: some line has the key.  (A frame without
    lines has no column at all.) *)
Definition has_column {cell : Type} (column : Line cell -> option cell)
  (frame : list (Line cell)) : bool :=
  existsb (fun l => match column l with Some _ => true | None => false end)
          frame.

(** Lines 25-26, with [to_numeric] the conversion of one cell; the cell
    of a line without the key is NaN. *)
Definition to_numeric_columns {cell : Type} (to_numeric : cell -> option Q)
  (frame : list (Line cell)) : list NumRow :=
  map (fun l => mkNumRow (line_region l)
                         (c ← line_latency l; to_numeric c)
                         (c ← line_uptime l; to_numeric c))
      frame.

(** Line 29: [dropna(subset=['latency', 'uptime'])]. *)
Definition dropna (frame : list NumRow) : list NumRow :=
  filter (fun r => is_Some (num_latency r) /\ is_Some (num_uptime r)) frame.

(** A row without NaN, as the handler reads it. *)
Definition as_row (r : NumRow) : option Row :=
  lat ← num_latency r; up ← num_uptime r;
  Some (mkRow (num_region r) lat up).

Definition not_found_message : string :=
  "FATAL ERROR: 'q-vercel-latency.json' not found. Please check the path.".

(** The line printed by the second handler for an exception of text
    [e]. *)
Definition load_error_message (e : string) : string :=
  "FATAL ERROR during data load: " +:+ e.

(** The text of [KeyError(column)]. *)
Definition key_error (column : string) : string := "'" +:+ column +:+ "'".

(** Lines 19-36: the table the module ends up with, and the lines it
    printed.  Reading a column the frame does not have (lines 25, 26)
    raises [KeyError], which the second handler catches. *)
Definition load {cell : Type} (to_numeric : cell -> option Q)
  (src : source cell) : list Row * list string :=
  match src with
  | Lines frame =>
      if negb (has_column line_latency frame)
      then ([], [load_error_message (key_error "latency")])
      else if negb (has_column line_uptime frame)
      then ([], [load_error_message (key_error "uptime")])
      else (omap as_row (dropna (to_numeric_columns to_numeric frame)), [])
  | Missing => ([], [not_found_message])
  | Malformed e => ([], [load_error_message e])
  end.

(** The process once the module is imported. *)
Definition startup {cell : Type} (to_numeric : cell -> option Q)
  (src : source cell) : World :=
  mkWorld (fst (load to_numeric src)) [].

(** * Properties *)

(** ** The library calls on small inputs *)

Example sort_three : Np.sort [300; 50; 100] = [50; 100; 300].
Proof. reflexivity. Qed.

Example percentile_two : Np.percentile [300; 100] 95 == 290.
Proof. reflexivity. Qed.

Example percentile_one : Np.percentile [50] 95 == 50.
Proof. reflexivity. Qed.

Example percentile_twenty :
  Np.percentile (map (fun k => inject_Z (Z.of_nat k)) (seq 1 20)) 95
  == 1905 # 100.
Proof. reflexivity. Qed.

Example py_round_ties_to_even :
  Num.py_round (1 # 2000) 3 == 0 /\ Num.py_round (3 # 2000) 3 == 2 # 1000.
Proof. split; reflexivity. Qed.

Example mean_two : Series.mean [999 # 10; 995 # 10] == 997 # 10.
Proof. reflexivity. Qed.

Example mask_at_threshold :
  Series.bool_sum (Series.gt [100; 150; 300] 150) = 1%nat.
Proof. reflexivity. Qed.

(** ** The loop and the handler *)

Section Handler.

Implicit Types (w : World) (data : RequestBody) (df : list Row).
Implicit Types (m : gmap string (gmap string Q)) (r : string).

Lemma record_nil w : record w [] = w.
Proof. destruct w; unfold record; simpl. by rewrite app_nil_r. Qed.

Lemma record_app w e1 e2 : record (record w e1) e2 = record w (e1 ++ e2).
Proof. unfold record; simpl. by rewrite app_assoc. Qed.

Lemma loop_body_run data m r w :
  loop_body data m r w =
    (loop_result (TELEMETRY_DF w) (threshold_ms data) [r] m,
     record w [EvRegion r]).
Proof.
  unfold loop_body, loop_result, mbind, M_bind, tell, read_df, mret, M_ret.
  simpl. by destruct (df_empty _).
Qed.

Lemma for_each_loop_body data rs : forall m w,
  for_each (loop_body data) rs m w =
    (loop_result (TELEMETRY_DF w) (threshold_ms data) rs m,
     record w (EvRegion <$> rs)).
Proof.
  induction rs as [|r rs IH]; intros m w; simpl.
  - by rewrite record_nil.
  - unfold mbind, M_bind. rewrite loop_body_run, IH, record_app. done.
Qed.

Lemma get_metrics_empty data w :
  TELEMETRY_DF w = [] ->
  get_metrics data w = ({[ "error" := PyStr error_message ]}, w).
Proof.
  intros E. unfold get_metrics, mbind, M_bind, read_df. by rewrite E.
Qed.

Lemma get_metrics_loaded data w :
  TELEMETRY_DF w <> [] ->
  get_metrics data w =
    (PyDict <$> loop_result (TELEMETRY_DF w) (threshold_ms data)
                            (regions data) ∅,
     record w (EvRegion <$> regions data)).
Proof.
  intros E. unfold get_metrics, mbind, M_bind, read_df.
  destruct (TELEMETRY_DF w) as [|row df] eqn:Edf; [done|].
  change (df_empty (row :: df)) with false. cbv iota beta.
  rewrite for_each_loop_body, Edf. done.
Qed.

Lemma df_empty_true df : df_empty df = true <-> df = [].
Proof. by destruct df. Qed.

Lemma df_region_sub df r row : row ∈ df_region df r -> row ∈ df.
Proof. unfold df_region. rewrite list_elem_of_filter. tauto. Qed.

Lemma df_region_nonempty df r : df_region df r <> [] -> df <> [].
Proof. intros H ->. by apply H. Qed.

(** What the loop leaves under a key: the statistics of the label's rows
    when the label was requested and has rows, the previous binding
    otherwise. *)
Lemma loop_result_lookup df t rs : forall m r,
  loop_result df t rs m !! r =
    if decide (r ∈ rs /\ df_region df r <> [])
    then Some (region_stats (df_region df r) t)
    else m !! r.
Proof.
  unfold loop_result.
  induction rs as [|r0 rs IH]; intros m r; cbn [fold_left].
  - rewrite decide_False; [done|]. intros [H _]. by apply elem_of_nil in H.
  - rewrite IH. destruct (decide (r = r0)) as [->|Hne].
    + destruct (df_empty (df_region df r0)) eqn:E.
      * apply df_empty_true in E.
        rewrite !decide_False; [done| |]; intros [_ H]; by apply H.
      * assert (df_region df r0 <> []) by (intros E'; by rewrite E' in E).
        rewrite lookup_insert_eq.
        rewrite (decide_True (P := r0 ∈ r0 :: rs /\ _));
          [|split; [by left|done]].
        by destruct (decide _).
    + assert (m !! r =
        (if df_empty (df_region df r0) then m
         else <[r0:=region_stats (df_region df r0) t]> m) !! r) as <-.
      { destruct (df_empty _); [done|]. by rewrite lookup_insert_ne. }
      destruct (decide (r ∈ rs /\ _)) as [[H1 H2]|H1],
               (decide (r ∈ r0 :: rs /\ _)) as [[H3 H4]|H3]; try done.
      * exfalso. apply H3. split; [by right|done].
      * exfalso. apply elem_of_cons in H3 as [H3|H3]; [done|].
        apply H1. by split.
Qed.

Lemma entry_fmap m r : entry (PyDict <$> m) r = m !! r.
Proof. unfold entry. rewrite lookup_fmap. by destruct (m !! r). Qed.

(** The statistics reported for a label by the handler on a loaded
    table. *)
Lemma get_metrics_entry data w r :
  TELEMETRY_DF w <> [] ->
  entry (fst (get_metrics data w)) r =
    if decide (r ∈ regions data /\ df_region (TELEMETRY_DF w) r <> [])
    then Some (region_stats (df_region (TELEMETRY_DF w) r) (threshold_ms data))
    else None.
Proof.
  intros E. rewrite get_metrics_loaded by done. simpl.
  rewrite entry_fmap, loop_result_lookup. by rewrite lookup_empty.
Qed.

Lemma has_return_type_fmap m : has_return_type (PyDict <$> m) = true.
Proof.
  unfold has_return_type. apply forallb_forall. intros [k v] Hin.
  apply list_elem_of_In, elem_of_map_to_list in Hin.
  apply lookup_fmap_Some in Hin as (d & <- & _). done.
Qed.

End Handler.

(** ** Counting the rows above the threshold *)

Section Breaches.

Lemma Qgtb_true x y : Num.Qgtb x y = true <-> y < x.
Proof.
  unfold Num.Qgtb. rewrite (Qgt_alt x y).
  destruct (Qcompare x y); split; congruence.
Qed.

Lemma Qgtb_false x y : Num.Qgtb x y = false <-> x <= y.
Proof.
  split; intros H.
  - destruct (Qlt_le_dec y x) as [L|L]; [|done].
    apply Qgtb_true in L. congruence.
  - destruct (Num.Qgtb x y) eqn:E; [|done].
    apply Qgtb_true in E. by apply Qlt_not_le in E.
Qed.

(** The sum of the mask [latency > t] counts the rows above [t]. *)
Lemma bool_sum_gt_latency (rows : list Row) (t : Q) :
  Series.bool_sum (Series.gt (latency <$> rows) t) = spec_breaches rows t.
Proof.
  unfold spec_breaches.
  induction rows as [|row rows IH]; [done|].
  cbn [fmap list_fmap Series.gt map Series.bool_sum].
  rewrite filter_cons.
  fold (latency <$> rows). fold (Series.gt (latency <$> rows) t).
  rewrite IH. destruct (decide (t < latency row)) as [L|L].
  - apply Qgtb_true in L. rewrite L. done.
  - apply Qnot_lt_le, Qgtb_false in L. rewrite L. done.
Qed.

(** A row whose latency equals the threshold is not counted. *)
Lemma spec_breaches_at_threshold (row : Row) (rows : list Row) (t : Q) :
  latency row == t -> spec_breaches (row :: rows) t = spec_breaches rows t.
Proof.
  intros E. unfold spec_breaches. rewrite filter_cons_False; [done|].
  rewrite E. apply Qlt_irrefl.
Qed.

Lemma spec_breaches_antitone (rows : list Row) (t1 t2 : Q) :
  t1 <= t2 -> (spec_breaches rows t2 <= spec_breaches rows t1)%nat.
Proof.
  intros Ht. unfold spec_breaches.
  induction rows as [|row rows IH]; [done|].
  rewrite !filter_cons.
  destruct (decide (t2 < latency row)) as [L2|L2];
    destruct (decide (t1 < latency row)) as [L1|L1]; simpl; try lia.
  exfalso. apply L1. by apply Qle_lt_trans with t2.
Qed.

End Breaches.

(** ** Sorting *)

Section Sort.

Lemma insert_sorted_perm (x : Q) (l : list Q) : Np.insert_sorted x l ≡ₚ x :: l.
Proof.
  induction l as [|y l IH]; [done|]. cbn [Np.insert_sorted].
  destruct (Qle_bool x y); [done|]. rewrite IH. apply perm_swap.
Qed.

Lemma sort_perm (a : list Q) : Np.sort a ≡ₚ a.
Proof.
  induction a as [|x a IH]; [done|]. cbn [Np.sort].
  rewrite insert_sorted_perm. by rewrite IH.
Qed.

Lemma sort_length (a : list Q) : length (Np.sort a) = length a.
Proof. apply Permutation_length, sort_perm. Qed.

Lemma sort_elem_of (a : list Q) x : x ∈ Np.sort a <-> x ∈ a.
Proof. by rewrite sort_perm. Qed.

Lemma insert_sorted_hd (x y : Q) (l : list Q) :
  y <= x -> HdRel Qle y l -> HdRel Qle y (Np.insert_sorted x l).
Proof.
  intros Hyx H. destruct l as [|z l]; cbn [Np.insert_sorted].
  - by constructor.
  - destruct (Qle_bool x z); constructor; [done|]. by inversion H.
Qed.

Lemma insert_sorted_sorted (x : Q) (l : list Q) :
  Sorted Qle l -> Sorted Qle (Np.insert_sorted x l).
Proof.
  induction 1 as [|y l Hs IH Hd]; cbn [Np.insert_sorted].
  - repeat constructor.
  - destruct (Qle_bool x y) eqn:E.
    + apply Qle_bool_iff in E. repeat constructor; done.
    + constructor; [done|]. apply insert_sorted_hd; [|done].
      destruct (Qlt_le_dec y x) as [L|L]; [by apply Qlt_le_weak|].
      apply Qle_bool_iff in L. congruence.
Qed.

(** [Np.sort] returns the values in ascending order. *)
Lemma sort_sorted (a : list Q) : Sorted Qle (Np.sort a).
Proof.
  induction a as [|x a IH]; cbn [Np.sort]; [constructor|].
  by apply insert_sorted_sorted.
Qed.

End Sort.

(** ** The statistics dict and the endpoint *)

Section Endpoint.

Implicit Types (w : World) (data : RequestBody) (raw : RawBody).
Implicit Types (rows : list Row) (r : string).

Lemma region_stats_avg_latency rows t :
  region_stats rows t !! "avg_latency"
  = Some (Num.py_round (Series.mean (latency <$> rows)) 3).
Proof. unfold region_stats. by simplify_map_eq. Qed.

Lemma region_stats_p95_latency rows t :
  region_stats rows t !! "p95_latency"
  = Some (Num.py_round (Np.percentile (latency <$> rows) 95) 3).
Proof. unfold region_stats. by simplify_map_eq. Qed.

Lemma region_stats_avg_uptime rows t :
  region_stats rows t !! "avg_uptime"
  = Some (Num.py_round (Series.mean (uptime <$> rows)) 3).
Proof. unfold region_stats. by simplify_map_eq. Qed.

Lemma region_stats_breaches rows t :
  region_stats rows t !! "breaches"
  = Some (inject_Z (Z.of_nat (spec_breaches rows t))).
Proof.
  unfold region_stats. rewrite bool_sum_gt_latency. by simplify_map_eq.
Qed.

Lemma region_stats_dom rows t : dom (region_stats rows t) = stat_names.
Proof.
  unfold region_stats, stat_names.
  rewrite !dom_insert_L, dom_singleton_L. set_solver.
Qed.

Lemma validate_Some raw :
  0 < raw_threshold_ms raw ->
  RequestBody_validate raw =
    Some (mkRequestBody (raw_regions raw) (raw_threshold_ms raw)).
Proof.
  intros H. unfold RequestBody_validate.
  by rewrite (proj2 (Qgtb_true _ _) H).
Qed.

Lemma validate_None raw :
  raw_threshold_ms raw <= 0 -> RequestBody_validate raw = None.
Proof.
  intros H. unfold RequestBody_validate.
  by rewrite (proj2 (Qgtb_false _ _) H).
Qed.

Lemma validate_inv raw data :
  RequestBody_validate raw = Some data ->
  0 < threshold_ms data
  /\ regions data = raw_regions raw
  /\ threshold_ms data = raw_threshold_ms raw.
Proof.
  unfold RequestBody_validate.
  destruct (Num.Qgtb _ 0) eqn:E; [|done].
  intros [= <-]. by apply Qgtb_true in E.
Qed.

(** The error object does not have the declared return type. *)
Lemma error_object_return_type :
  has_return_type {[ "error" := PyStr error_message ]} = false.
Proof. unfold has_return_type. by rewrite map_to_list_singleton. Qed.

(** A valid request on a loaded table is answered with the mapping of
    the loop. *)
Lemma post_api_loaded raw data w :
  TELEMETRY_DF w <> [] ->
  RequestBody_validate raw = Some data ->
  post_api raw w =
    (Http200 (PyDict <$> loop_result (TELEMETRY_DF w) (threshold_ms data)
                                     (regions data) ∅),
     record w (EvHandler data :: (EvRegion <$> regions data))).
Proof.
  intros Hdf Hv. unfold post_api. rewrite Hv.
  unfold mbind, M_bind, tell. fold (record w [EvHandler data]).
  rewrite get_metrics_loaded by done.
  cbn [TELEMETRY_DF record]. rewrite has_return_type_fmap.
  unfold mret, M_ret, record; simpl. by rewrite <- app_assoc.
Qed.

(** The handler is only ever called with a positive threshold. *)
Lemma handler_threshold_positive raw w data :
  EvHandler data ∈ log (snd (post_api raw w)) ->
  EvHandler data ∈ log w \/ 0 < threshold_ms data.
Proof.
  unfold post_api.
  destruct (RequestBody_validate raw) as [data'|] eqn:Hv; [|by left].
  apply validate_inv in Hv as (Hpos & _ & _).
  unfold mbind, M_bind, tell. fold (record w [EvHandler data']).
  destruct (decide (TELEMETRY_DF w = [])) as [E|E].
  - rewrite get_metrics_empty by done.
    destruct (has_return_type _); cbn;
      rewrite elem_of_app, list_elem_of_singleton; intros [H|[= ->]]; auto.
  - rewrite get_metrics_loaded by done.
    rewrite has_return_type_fmap. cbn.
    rewrite !elem_of_app, list_elem_of_singleton, list_elem_of_fmap.
    intros [[H|[= ->]]|(x & [=] & _)]; auto.
Qed.

Lemma error_object_entry r :
  entry {[ "error" := PyStr error_message ]} r = None.
Proof.
  unfold entry. destruct (decide (r = "error")) as [->|Hne].
  - by rewrite lookup_singleton_eq.
  - by rewrite lookup_singleton_ne.
Qed.

End Endpoint.

(** * The claims *)

Section Claims.

Implicit Types (w : World) (data : RequestBody) (raw : RawBody).
Implicit Types (r : string).

(** C1.  When the table failed to load, the handler returns the error
    object without starting the loop over the regions (no event is
    recorded); but that object does not have the handler's declared return
    type, so the endpoint answers a valid request with a server error and
    not with the error object. *)
Theorem load_failure_response raw data w :
  TELEMETRY_DF w = [] ->
  RequestBody_validate raw = Some data ->
  get_metrics data w = ({[ "error" := PyStr error_message ]}, w)
  /\ has_return_type (fst (get_metrics data w)) = false
  /\ post_api raw w = (Http500, record w [EvHandler data]).
Proof.
  intros Hdf Hv. rewrite get_metrics_empty by done.
  split; [done|]. split; [apply error_object_return_type|].
  unfold post_api. rewrite Hv.
  unfold mbind, M_bind, tell. fold (record w [EvHandler data]).
  rewrite get_metrics_empty by done.
  by rewrite error_object_return_type.
Qed.

Lemma load_failure_response_witness :
  get_metrics (mkRequestBody ["amer"] 150) unloaded
    = ({[ "error" := PyStr error_message ]}, unloaded)
  /\ has_return_type (fst (get_metrics (mkRequestBody ["amer"] 150) unloaded))
     = false
  /\ post_api (mkRawBody ["amer"] 150) unloaded
     = (Http500, record unloaded [EvHandler (mkRequestBody ["amer"] 150)]).
Proof.
  apply (load_failure_response (mkRawBody ["amer"] 150)); reflexivity.
Defined.

(** C3.  For a requested region with a non-empty matching subset, the
    reported [breaches] is the number of rows of the subset whose latency
    is strictly greater than the threshold; a row whose latency equals the
    threshold is not among them.  (This holds for every threshold, valid
    or not.) *)
Theorem breaches_reported data w r :
  r ∈ regions data ->
  df_region (TELEMETRY_DF w) r <> [] ->
  exists d,
    entry (fst (get_metrics data w)) r = Some d
    /\ field d "breaches"
         (inject_Z (Z.of_nat
            (spec_breaches (df_region (TELEMETRY_DF w) r)
                           (threshold_ms data))))
    /\ forall row, row ∈ df_region (TELEMETRY_DF w) r ->
         latency row == threshold_ms data ->
         row ∉ filter (fun row => threshold_ms data < latency row)
                      (df_region (TELEMETRY_DF w) r).
Proof.
  intros Hr HS. pose proof (df_region_nonempty _ _ HS) as Hdf.
  exists (region_stats (df_region (TELEMETRY_DF w) r) (threshold_ms data)).
  split; [|split].
  - rewrite get_metrics_entry by done. by rewrite decide_True.
  - eexists. split; [apply region_stats_breaches|done].
  - intros row _ E [L _]%list_elem_of_filter. rewrite E in L.
    by apply Qlt_irrefl in L.
Qed.

Lemma breaches_reported_witness :
  exists d,
    entry (fst (get_metrics scenario_query (mkWorld scenario_table []))) "amer"
      = Some d
    /\ field d "breaches"
         (inject_Z (Z.of_nat
            (spec_breaches (df_region scenario_table "amer") 150)))
    /\ forall row, row ∈ df_region scenario_table "amer" ->
         latency row == 150 ->
         row ∉ filter (fun row => 150 < latency row)
                      (df_region scenario_table "amer").
Proof.
  apply (breaches_reported scenario_query (mkWorld scenario_table [])).
  - vm_compute. set_solver.
  - vm_compute. discriminate.
Defined.

(** C4.  The concrete scenario: the result has exactly the keys "amer" and
    "emea", with the stated statistics, and "apac" is absent. *)
Theorem scenario_result :
  let body := fst (get_metrics scenario_query (mkWorld scenario_table [])) in
  dom body = {[ "amer"; "emea" ]}
  /\ (exists d, entry body "amer" = Some d
        /\ dom d = stat_names
        /\ field d "avg_latency" 200
        /\ field d "p95_latency" 290
        /\ field d "avg_uptime" (997 # 10)
        /\ field d "breaches" 1)
  /\ (exists d, entry body "emea" = Some d
        /\ dom d = stat_names
        /\ field d "avg_latency" 50
        /\ field d "p95_latency" 50
        /\ field d "avg_uptime" 100
        /\ field d "breaches" 0)
  /\ body !! "apac" = None
  /\ fst (post_api (mkRawBody ["amer"; "emea"; "apac"] 150)
                   (mkWorld scenario_table []))
     = Http200 body.
Proof.
  intros body.
  assert (TELEMETRY_DF (mkWorld scenario_table []) <> []) as Hdf by done.
  split; [|split; [|split; [|split]]].
  - subst body. rewrite get_metrics_loaded by done. cbn [fst].
    rewrite dom_fmap_L. apply set_eq. intros k.
    rewrite elem_of_dom, loop_result_lookup, lookup_empty.
    destruct (decide _) as [[Hk Hne]|Hn].
    + split; [intros _|by eauto].
      cbn in Hk. rewrite !elem_of_cons in Hk.
      destruct Hk as [->|[->|[->|Hk]]]; [set_solver|set_solver| |].
      * exfalso. by apply Hne.
      * by apply elem_of_nil in Hk.
    + split; [by intros [? ?]|]. intros Hk. exfalso. apply Hn.
      apply elem_of_union in Hk as [Hk|Hk];
        apply elem_of_singleton in Hk; subst k;
        (split; [cbn; set_solver|by vm_compute]).
  - eexists. split; [subst body; rewrite get_metrics_entry by done;
                     rewrite decide_True; [done|]|].
    { split; [cbn; set_solver|by vm_compute]. }
    split; [apply region_stats_dom|].
    repeat split; (eexists; split; [by vm_compute|by vm_compute]).
  - eexists. split; [subst body; rewrite get_metrics_entry by done;
                     rewrite decide_True; [done|]|].
    { split; [cbn; set_solver|by vm_compute]. }
    split; [apply region_stats_dom|].
    repeat split; (eexists; split; [by vm_compute|by vm_compute]).
  - subst body. rewrite get_metrics_loaded by done. cbn [fst].
    rewrite lookup_fmap, loop_result_lookup, lookup_empty.
    rewrite decide_False; [done|]. intros [_ Hne]. by apply Hne.
  - subst body.
    rewrite (post_api_loaded _ scenario_query) by done.
    by rewrite get_metrics_loaded by done.
Qed.

(** C5.  A request whose [threshold_ms] is zero or negative is rejected by
    the validation of the body: the answer is the validation error and the
    process is left as it was, so neither the handler nor its loop ran
    (no event was recorded). *)
Theorem nonpositive_threshold_rejected raw w :
  raw_threshold_ms raw <= 0 ->
  post_api raw w = (Http422, w).
Proof.
  intros H. unfold post_api. by rewrite validate_None.
Qed.

Lemma nonpositive_threshold_rejected_witness :
  post_api (mkRawBody ["amer"] 0) (mkWorld scenario_table [])
    = (Http422, mkWorld scenario_table [])
  /\ post_api (mkRawBody ["amer"] (-5)) (mkWorld scenario_table [])
    = (Http422, mkWorld scenario_table []).
Proof.
  split.
  - apply (nonpositive_threshold_rejected (mkRawBody ["amer"] 0)).
    vm_compute. discriminate.
  - apply (nonpositive_threshold_rejected (mkRawBody ["amer"] (-5))).
    vm_compute. discriminate.
Defined.

(** C6.  A requested label whose matching subset of the table is empty
    is silently omitted.  The loop over the requested labels, on whatever
    table it runs, leaves no entry for such a label; and on a loaded table
    (the only one the loop runs on: see C1 for the other) the handler
    returns that mapping and no error: every key is bound to a statistics
    dict, the label is not a key, and the endpoint answers with status
    200. *)
Theorem empty_region_omitted data w r :
  r ∈ regions data ->
  df_region (TELEMETRY_DF w) r = [] ->
  fst (for_each (loop_body data) (regions data) ∅ w) !! r = None
  /\ (TELEMETRY_DF w <> [] ->
      fst (get_metrics data w)
      = PyDict <$> fst (for_each (loop_body data) (regions data) ∅ w)
      /\ fst (get_metrics data w) !! r = None
      /\ has_return_type (fst (get_metrics data w)) = true
      /\ forall raw, RequestBody_validate raw = Some data ->
           fst (post_api raw w) = Http200 (fst (get_metrics data w))).
Proof.
  intros Hr HS. rewrite for_each_loop_body. cbn [fst].
  assert (loop_result (TELEMETRY_DF w) (threshold_ms data) (regions data) ∅
          !! r = None) as Hnone.
  { rewrite loop_result_lookup, lookup_empty.
    rewrite decide_False; [done|]. by intros [_ Hne]. }
  split; [done|]. intros Hdf.
  rewrite get_metrics_loaded by done. cbn [fst].
  split; [done|]. split; [by rewrite lookup_fmap, Hnone|].
  split; [apply has_return_type_fmap|].
  intros raw Hv. by rewrite (post_api_loaded raw data w Hdf Hv).
Qed.

Lemma empty_region_omitted_witness :
  let w := mkWorld scenario_table [] in
  fst (for_each (loop_body scenario_query) (regions scenario_query) ∅ w)
    !! "apac" = None
  /\ (TELEMETRY_DF w <> [] ->
      fst (get_metrics scenario_query w)
      = PyDict <$> fst (for_each (loop_body scenario_query)
                                 (regions scenario_query) ∅ w)
      /\ fst (get_metrics scenario_query w) !! "apac" = None
      /\ has_return_type (fst (get_metrics scenario_query w)) = true
      /\ forall raw, RequestBody_validate raw = Some scenario_query ->
           fst (post_api raw w)
           = Http200 (fst (get_metrics scenario_query w))).
Proof.
  apply (empty_region_omitted scenario_query (mkWorld scenario_table [])
                              "apac").
  - vm_compute. set_solver.
  - reflexivity.
Defined.

(** C7.  For a fixed table and region, the reported [breaches] does not
    increase with the threshold: with [t1 <= t2], either both requests
    report a count for the region and the one at [t2] is at most the one
    at [t1], or neither reports the region. *)
Theorem breaches_antitone w (rs : list string) r (t1 t2 : Q) :
  t1 <= t2 ->
  match reported (fst (get_metrics (mkRequestBody rs t1) w)) r "breaches",
        reported (fst (get_metrics (mkRequestBody rs t2) w)) r "breaches"
  with
  | Some b1, Some b2 => b2 <= b1
  | None, None => True
  | _, _ => False
  end.
Proof.
  intros Ht. unfold reported.
  destruct (decide (TELEMETRY_DF w = [])) as [E|E].
  - rewrite !get_metrics_empty by done. cbn [fst].
    by rewrite error_object_entry.
  - rewrite !get_metrics_entry by done. cbn [regions threshold_ms].
    destruct (decide _) as [_|_]; [|done]. cbn [mbind option_bind].
    rewrite !region_stats_breaches.
    rewrite <- Zle_Qle. apply Nat2Z.inj_le. by apply spec_breaches_antitone.
Qed.

Lemma breaches_antitone_witness :
  match reported (fst (get_metrics (mkRequestBody ["amer"] 150)
                                   (mkWorld scenario_table [])))
                 "amer" "breaches",
        reported (fst (get_metrics (mkRequestBody ["amer"] 300)
                                   (mkWorld scenario_table [])))
                 "amer" "breaches"
  with
  | Some b1, Some b2 => b2 <= b1
  | None, None => True
  | _, _ => False
  end.
Proof.
  apply (breaches_antitone (mkWorld scenario_table []) ["amer"] "amer" 150 300).
  vm_compute. discriminate.
Defined.

(** C9.  The computation is deterministic: the result depends on the
    table and the request only (two processes with the same table return
    the same mapping for the same request), and a run leaves the table as
    it was, so running the same request again returns the same mapping. *)
Theorem get_metrics_deterministic data w w' :
  TELEMETRY_DF w = TELEMETRY_DF w' ->
  fst (get_metrics data w) = fst (get_metrics data w')
  /\ TELEMETRY_DF (snd (get_metrics data w)) = TELEMETRY_DF w
  /\ fst (get_metrics data (snd (get_metrics data w)))
     = fst (get_metrics data w).
Proof.
  intros E. destruct (decide (TELEMETRY_DF w = [])) as [Hw|Hw].
  - assert (TELEMETRY_DF w' = []) as Hw' by congruence.
    rewrite (get_metrics_empty data w Hw), (get_metrics_empty data w' Hw').
    cbn [fst snd]. by rewrite (get_metrics_empty data w Hw).
  - assert (TELEMETRY_DF w' <> []) as Hw' by congruence.
    rewrite (get_metrics_loaded data w Hw), (get_metrics_loaded data w' Hw').
    cbn [fst snd record TELEMETRY_DF]. rewrite E. split; [done|split; [done|]].
    rewrite get_metrics_loaded by (cbn; congruence).
    cbn [fst record TELEMETRY_DF]. by rewrite E.
Qed.

Lemma get_metrics_deterministic_witness :
  let w := mkWorld scenario_table [] in
  let w' := mkWorld scenario_table [EvRegion "emea"] in
  fst (get_metrics scenario_query w) = fst (get_metrics scenario_query w')
  /\ TELEMETRY_DF (snd (get_metrics scenario_query w)) = TELEMETRY_DF w
  /\ fst (get_metrics scenario_query (snd (get_metrics scenario_query w)))
     = fst (get_metrics scenario_query w).
Proof.
  apply (get_metrics_deterministic scenario_query
           (mkWorld scenario_table [])
           (mkWorld scenario_table [EvRegion "emea"])).
  reflexivity.
Defined.

(** C10.  Against a non-empty table, every key of the returned mapping is
    one of the requested labels, and it is bound to a dict with exactly
    the four fields avg_latency, p95_latency, avg_uptime and breaches. *)
Theorem result_keys_requested data w (k : string) (v : pyval) :
  TELEMETRY_DF w <> [] ->
  fst (get_metrics data w) !! k = Some v ->
  k ∈ regions data
  /\ exists d, v = PyDict d /\ dom d = stat_names.
Proof.
  intros Hdf. rewrite get_metrics_loaded by done. cbn [fst].
  rewrite lookup_fmap, loop_result_lookup, lookup_empty.
  destruct (decide _) as [[Hk _]|_]; [|done].
  intros [= <-]. split; [done|].
  eexists. split; [done|]. apply region_stats_dom.
Qed.

Lemma result_keys_requested_witness :
  "emea" ∈ regions scenario_query
  /\ exists d,
       PyDict (region_stats (df_region scenario_table "emea") 150) = PyDict d
       /\ dom d = stat_names.
Proof.
  apply (result_keys_requested scenario_query (mkWorld scenario_table [])
           "emea" (PyDict (region_stats (df_region scenario_table "emea") 150))).
  - discriminate.
  - rewrite get_metrics_loaded by discriminate. cbn [fst].
    rewrite lookup_fmap, loop_result_lookup, lookup_empty.
    rewrite decide_True; [done|].
    split; [cbn; set_solver|by vm_compute].
Defined.

End Claims.

(** * Further properties of the handler *)

Section Requests.

Implicit Types (w : World) (data : RequestBody) (raw : RawBody).
Implicit Types (rows : list Row) (r k : string) (rs : list string).

(** What the statistics dict binds a name to. *)
Lemma region_stats_lookup rows t k :
  region_stats rows t !! k =
    if decide (k = "avg_latency")
    then Some (Num.py_round (Series.mean (latency <$> rows)) 3)
    else if decide (k = "p95_latency")
    then Some (Num.py_round (Np.percentile (latency <$> rows) 95) 3)
    else if decide (k = "avg_uptime")
    then Some (Num.py_round (Series.mean (uptime <$> rows)) 3)
    else if decide (k = "breaches")
    then Some (inject_Z (Z.of_nat (spec_breaches rows t)))
    else None.
Proof.
  destruct (decide (k = "avg_latency")) as [->|H1];
    [apply region_stats_avg_latency|].
  destruct (decide (k = "p95_latency")) as [->|H2];
    [apply region_stats_p95_latency|].
  destruct (decide (k = "avg_uptime")) as [->|H3];
    [apply region_stats_avg_uptime|].
  destruct (decide (k = "breaches")) as [->|H4];
    [apply region_stats_breaches|].
  unfold region_stats. rewrite !lookup_insert_ne by done.
  by rewrite lookup_singleton_ne.
Qed.

(** The number reported for a label under a name, on a loaded table. *)
Lemma reported_loaded data w r k :
  TELEMETRY_DF w <> [] ->
  reported (fst (get_metrics data w)) r k =
    if decide (r ∈ regions data /\ df_region (TELEMETRY_DF w) r <> [])
    then region_stats (df_region (TELEMETRY_DF w) r) (threshold_ms data) !! k
    else None.
Proof.
  intros Hdf. unfold reported. rewrite get_metrics_entry by done.
  by destruct (decide _).
Qed.

Lemma reported_unloaded data w r k :
  TELEMETRY_DF w = [] -> reported (fst (get_metrics data w)) r k = None.
Proof.
  intros Hdf. unfold reported. rewrite get_metrics_empty by done.
  cbn [fst]. by rewrite error_object_entry.
Qed.

(** X2.  On a loaded table, a request none of whose labels has rows (in
    particular a request with no label at all) gets the empty mapping. *)
Theorem no_matching_rows_empty_mapping data w :
  TELEMETRY_DF w <> [] ->
  (forall r, r ∈ regions data -> df_region (TELEMETRY_DF w) r = []) ->
  fst (get_metrics data w) = ∅.
Proof.
  intros Hdf Hno. rewrite get_metrics_loaded by done. cbn [fst].
  apply map_eq. intros r.
  rewrite lookup_fmap, loop_result_lookup, !lookup_empty.
  rewrite decide_False; [done|]. intros [Hr Hne]. by apply Hne, Hno.
Qed.

Lemma no_matching_rows_empty_mapping_witness :
  fst (get_metrics (mkRequestBody [] 150) (mkWorld scenario_table [])) = ∅
  /\ fst (get_metrics (mkRequestBody ["apac"; "AMER"] 150)
                      (mkWorld scenario_table [])) = ∅.
Proof.
  split.
  - apply (no_matching_rows_empty_mapping (mkRequestBody [] 150)
             (mkWorld scenario_table [])); [discriminate|].
    intros r Hr. by apply elem_of_nil in Hr.
  - apply (no_matching_rows_empty_mapping
             (mkRequestBody ["apac"; "AMER"] 150)
             (mkWorld scenario_table [])); [discriminate|].
    intros r Hr. cbn in Hr. rewrite !elem_of_cons in Hr.
    destruct Hr as [->|[->|Hr]]; [reflexivity|reflexivity|].
    by apply elem_of_nil in Hr.
Defined.

(** X3.  The mapping depends on the requested labels as a set: their
    order and repetitions do not matter. *)
Theorem labels_as_set w rs1 rs2 (t : Q) :
  (forall r, r ∈ rs1 <-> r ∈ rs2) ->
  fst (get_metrics (mkRequestBody rs1 t) w)
  = fst (get_metrics (mkRequestBody rs2 t) w).
Proof.
  intros Hrs. destruct (decide (TELEMETRY_DF w = [])) as [E|E].
  - by rewrite !get_metrics_empty by done.
  - rewrite !get_metrics_loaded by done. cbn [fst regions threshold_ms].
    f_equal. apply map_eq. intros r. rewrite !loop_result_lookup.
    destruct (decide (r ∈ rs1 /\ _)) as [[H1 H2]|H1],
             (decide (r ∈ rs2 /\ _)) as [[H3 H4]|H3]; try done.
    + exfalso. apply H3. split; [by apply Hrs|done].
    + exfalso. apply H1. split; [by apply Hrs|done].
Qed.

Lemma labels_as_set_witness :
  fst (get_metrics (mkRequestBody ["amer"; "emea"; "amer"] 150)
                   (mkWorld scenario_table []))
  = fst (get_metrics (mkRequestBody ["emea"; "amer"] 150)
                     (mkWorld scenario_table [])).
Proof.
  apply (labels_as_set (mkWorld scenario_table [])
           ["amer"; "emea"; "amer"] ["emea"; "amer"] 150).
  intros r. rewrite !elem_of_cons. tauto.
Defined.

(** X4.  Asking for two lists of labels at once gives the union of the
    two mappings. *)
Theorem labels_concatenate w rs1 rs2 (t : Q) :
  fst (get_metrics (mkRequestBody (rs1 ++ rs2) t) w)
  = fst (get_metrics (mkRequestBody rs1 t) w)
    ∪ fst (get_metrics (mkRequestBody rs2 t) w).
Proof.
  destruct (decide (TELEMETRY_DF w = [])) as [E|E].
  - rewrite !get_metrics_empty by done. cbn [fst].
    apply map_eq. intros r. rewrite lookup_union.
    by destruct (_ !! r).
  - rewrite !get_metrics_loaded by done. cbn [fst regions threshold_ms].
    apply map_eq. intros r.
    rewrite lookup_union, !lookup_fmap, !loop_result_lookup, !lookup_empty.
    destruct (decide (r ∈ rs1 ++ rs2 /\ _)) as [[H1 H2]|H1],
             (decide (r ∈ rs1 /\ _)) as [[H3 H4]|H3],
             (decide (r ∈ rs2 /\ _)) as [[H5 H6]|H5]; try done.
    + exfalso. apply elem_of_app in H1 as [H1|H1]; [apply H3|apply H5]; done.
    + exfalso. apply H1. split; [apply elem_of_app; by left|done].
    + exfalso. apply H1. split; [apply elem_of_app; by left|done].
    + exfalso. apply H1. split; [apply elem_of_app; by right|done].
Qed.

(** X5.  The threshold only moves [breaches]: two requests for the same
    labels report the same regions and, under every other name, the same
    numbers. *)
Theorem threshold_only_moves_breaches w rs (t1 t2 : Q) r k :
  k <> "breaches" ->
  reported (fst (get_metrics (mkRequestBody rs t1) w)) r k
  = reported (fst (get_metrics (mkRequestBody rs t2) w)) r k
  /\ dom (fst (get_metrics (mkRequestBody rs t1) w))
     = dom (fst (get_metrics (mkRequestBody rs t2) w)).
Proof.
  intros Hk. destruct (decide (TELEMETRY_DF w = [])) as [E|E].
  - rewrite !reported_unloaded by done.
    by rewrite !get_metrics_empty by done.
  - rewrite !reported_loaded by done. cbn [regions threshold_ms]. split.
    + destruct (decide _); [|done]. rewrite !region_stats_lookup.
      repeat (destruct (decide _); [done|]). done.
    + rewrite !get_metrics_loaded by done. cbn [fst regions threshold_ms].
      rewrite !dom_fmap_L. apply set_eq. intros x.
      rewrite !elem_of_dom, !loop_result_lookup, !lookup_empty.
      destruct (decide _); [|done]. split; eauto.
Qed.

Lemma threshold_only_moves_breaches_witness :
  reported (fst (get_metrics (mkRequestBody ["amer"] 150)
                             (mkWorld scenario_table [])))
           "amer" "p95_latency"
  = reported (fst (get_metrics (mkRequestBody ["amer"] 1000)
                               (mkWorld scenario_table [])))
             "amer" "p95_latency"
  /\ dom (fst (get_metrics (mkRequestBody ["amer"] 150)
                           (mkWorld scenario_table [])))
     = dom (fst (get_metrics (mkRequestBody ["amer"] 1000)
                             (mkWorld scenario_table []))).
Proof.
  apply (threshold_only_moves_breaches (mkWorld scenario_table [])
           ["amer"] 150 1000 "amer" "p95_latency").
  discriminate.
Defined.

End Requests.

(** ** Counts *)

Section Values.

Implicit Types (w : World) (data : RequestBody).
Implicit Types (rows : list Row) (r k : string).

Lemma spec_breaches_le_length rows (t : Q) :
  (spec_breaches rows t <= length rows)%nat.
Proof. unfold spec_breaches. apply length_filter. Qed.

Lemma spec_breaches_none rows (t : Q) :
  spec_breaches rows t = 0%nat <-> forall row, row ∈ rows -> latency row <= t.
Proof.
  unfold spec_breaches. induction rows as [|row rows IH].
  - split; [|done]. intros _ row' H. by apply elem_of_nil in H.
  - rewrite filter_cons. destruct (decide (t < latency row)) as [L|L].
    + split; [done|]. intros H. exfalso.
      apply (Qlt_not_le _ _ L), H. by left.
    + rewrite IH. apply Qnot_lt_le in L. split.
      * intros H row' [->|Hin]%elem_of_cons; [done|by apply H].
      * intros H row' Hin. apply H. by right.
Qed.

Lemma spec_breaches_cons row rows (t : Q) :
  spec_breaches (row :: rows) t =
    if decide (t < latency row)
    then S (spec_breaches rows t)
    else spec_breaches rows t.
Proof.
  unfold spec_breaches. rewrite filter_cons. by destruct (decide _).
Qed.

Lemma spec_breaches_all rows (t : Q) :
  spec_breaches rows t = length rows
  <-> forall row, row ∈ rows -> t < latency row.
Proof.
  induction rows as [|row rows IH].
  - split; [|done]. intros _ row' H. by apply elem_of_nil in H.
  - pose proof (spec_breaches_le_length rows t) as Hle.
    rewrite spec_breaches_cons.
    destruct (decide (t < latency row)) as [L|L]; cbn [length].
    + split.
      * intros [= H]. pose proof (proj1 IH H) as H'.
        intros row' [->|Hin]%elem_of_cons; [done|by apply H'].
      * intros H. f_equal. apply IH. intros row' Hin. apply H. by right.
    + split; [lia|]. intros H. exfalso. apply L, H. by left.
Qed.

Lemma reported_requested data w r k :
  r ∈ regions data ->
  df_region (TELEMETRY_DF w) r <> [] ->
  reported (fst (get_metrics data w)) r k
  = region_stats (df_region (TELEMETRY_DF w) r) (threshold_ms data) !! k.
Proof.
  intros Hr HS. rewrite reported_loaded by by eapply df_region_nonempty.
  by rewrite decide_True.
Qed.

(** X6.  The reported [breaches] of a region is a whole number between
    zero and the number of the region's rows; it is zero exactly when no
    latency of the region is above the threshold, and the number of rows
    exactly when every latency is above it. *)
Theorem breaches_count_range data w r :
  r ∈ regions data ->
  df_region (TELEMETRY_DF w) r <> [] ->
  exists n : nat,
    reported (fst (get_metrics data w)) r "breaches"
      = Some (inject_Z (Z.of_nat n))
    /\ (n <= length (df_region (TELEMETRY_DF w) r))%nat
    /\ (n = 0%nat <->
        forall row, row ∈ df_region (TELEMETRY_DF w) r ->
                    latency row <= threshold_ms data)
    /\ (n = length (df_region (TELEMETRY_DF w) r) <->
        forall row, row ∈ df_region (TELEMETRY_DF w) r ->
                    threshold_ms data < latency row).
Proof.
  intros Hr HS.
  exists (spec_breaches (df_region (TELEMETRY_DF w) r) (threshold_ms data)).
  split; [|split; [|split]].
  - rewrite reported_requested by done. apply region_stats_breaches.
  - apply spec_breaches_le_length.
  - apply spec_breaches_none.
  - apply spec_breaches_all.
Qed.

Lemma breaches_count_range_witness :
  exists n : nat,
    reported (fst (get_metrics scenario_query (mkWorld scenario_table [])))
             "amer" "breaches"
      = Some (inject_Z (Z.of_nat n))
    /\ (n <= length (df_region scenario_table "amer"))%nat
    /\ (n = 0%nat <->
        forall row, row ∈ df_region scenario_table "amer" ->
                    latency row <= 150)
    /\ (n = length (df_region scenario_table "amer") <->
        forall row, row ∈ df_region scenario_table "amer" ->
                    150 < latency row).
Proof.
  apply (breaches_count_range scenario_query (mkWorld scenario_table [])
                              "amer").
  - vm_compute. set_solver.
  - vm_compute. discriminate.
Defined.

End Values.

(** ** The order of the rows *)

Section RowOrder.

Lemma spec_breaches_perm (rows1 rows2 : list Row) (t : Q) :
  rows1 ≡ₚ rows2 -> spec_breaches rows1 t = spec_breaches rows2 t.
Proof. intros H. unfold spec_breaches. by rewrite H. Qed.

Lemma df_region_perm (df1 df2 : list Row) (r : string) :
  df1 ≡ₚ df2 -> df_region df1 r ≡ₚ df_region df2 r.
Proof. intros H. unfold df_region. by rewrite H. Qed.

End RowOrder.

(** ** The table behind the statistics *)

Section Tables.

Implicit Types (w : World) (data : RequestBody).
Implicit Types (rows : list Row) (r k : string).

(** X8.  The order of the rows in the table does not change which
    regions are reported nor their [breaches]: two tables with the same
    rows give the same keys and the same counts. *)
Theorem row_order_keeps_breaches data w1 w2 :
  TELEMETRY_DF w1 ≡ₚ TELEMETRY_DF w2 ->
  dom (fst (get_metrics data w1)) = dom (fst (get_metrics data w2))
  /\ forall r,
       reported (fst (get_metrics data w1)) r "breaches"
       = reported (fst (get_metrics data w2)) r "breaches".
Proof.
  intros H. destruct (decide (TELEMETRY_DF w1 = [])) as [E1|E1].
  - assert (TELEMETRY_DF w2 = []) as E2
      by (apply Permutation_nil; by rewrite <- E1).
    split.
    + by rewrite !get_metrics_empty by done.
    + intros r. by rewrite !reported_unloaded by done.
  - assert (TELEMETRY_DF w2 <> []) as E2.
    { intros E2. apply E1. apply Permutation_nil. rewrite <- E2.
      by symmetry. }
    assert (forall r, df_region (TELEMETRY_DF w1) r <> []
                      <-> df_region (TELEMETRY_DF w2) r <> []) as Hne.
    { intros r. pose proof (df_region_perm _ _ r H) as Hr.
      split; intros Hn E; apply Hn; apply Permutation_nil; rewrite <- E;
        [by symmetry|done]. }
    split.
    + rewrite !get_metrics_loaded by done. cbn [fst].
      rewrite !dom_fmap_L. apply set_eq. intros x.
      rewrite !elem_of_dom, !loop_result_lookup, !lookup_empty.
      destruct (decide (x ∈ regions data /\ df_region (TELEMETRY_DF w1) x <> []))
        as [[H1 H2]|H1],
        (decide (x ∈ regions data /\ df_region (TELEMETRY_DF w2) x <> []))
        as [[H3 H4]|H3]; split; try done; try by eauto.
      * intros _. exfalso. apply H3. split; [done|by apply Hne].
      * intros _. exfalso. apply H1. split; [done|by apply Hne].
    + intros r. rewrite !reported_loaded by done.
      destruct (decide (r ∈ regions data /\ df_region (TELEMETRY_DF w1) r <> []))
        as [[H1 H2]|H1],
        (decide (r ∈ regions data /\ df_region (TELEMETRY_DF w2) r <> []))
        as [[H3 H4]|H3].
      * rewrite !region_stats_breaches.
        by rewrite (spec_breaches_perm _ _ _ (df_region_perm _ _ r H)).
      * exfalso. apply H3. split; [done|by apply Hne].
      * exfalso. apply H1. split; [done|by apply Hne].
      * done.
Qed.

Lemma row_order_keeps_breaches_witness :
  let w1 := mkWorld scenario_table [] in
  let w2 := mkWorld (reverse scenario_table) [] in
  dom (fst (get_metrics scenario_query w1))
  = dom (fst (get_metrics scenario_query w2))
  /\ forall r,
       reported (fst (get_metrics scenario_query w1)) r "breaches"
       = reported (fst (get_metrics scenario_query w2)) r "breaches".
Proof.
  apply (row_order_keeps_breaches scenario_query
           (mkWorld scenario_table [])
           (mkWorld (reverse scenario_table) [])).
  cbn [TELEMETRY_DF]. symmetry. apply reverse_Permutation.
Defined.

(** X11.  The statistics of a region depend on the rows of that region
    only: rows of other regions added to a loaded table leave its entry as
    it was. *)
Theorem other_regions_do_not_matter data w (more : list Row) r :
  TELEMETRY_DF w <> [] ->
  (forall row, row ∈ more -> region row <> r) ->
  entry (fst (get_metrics data (mkWorld (TELEMETRY_DF w ++ more) (log w)))) r
  = entry (fst (get_metrics data w)) r.
Proof.
  intros Hdf Hmore.
  assert (df_region (TELEMETRY_DF w ++ more) r = df_region (TELEMETRY_DF w) r)
    as E.
  { unfold df_region. rewrite filter_app.
    assert (filter (fun row => region row = r) more = []) as ->; 
      [|by rewrite app_nil_r].
    induction more as [|row more IH]; [done|].
    rewrite filter_cons_False by (apply Hmore; by left).
    apply IH. intros row' Hin. apply Hmore. by right. }
  rewrite !get_metrics_entry; cbn [TELEMETRY_DF]; [|done|].
  - by rewrite E.
  - intros E'. by apply app_eq_nil in E' as [? _].
Qed.

Lemma other_regions_do_not_matter_witness :
  entry (fst (get_metrics scenario_query
                (mkWorld (scenario_table ++ [mkRow "apac" 900 50]) [])))
        "amer"
  = entry (fst (get_metrics scenario_query (mkWorld scenario_table [])))
          "amer".
Proof.
  apply (other_regions_do_not_matter scenario_query
           (mkWorld scenario_table []) [mkRow "apac" 900 50] "amer").
  - discriminate.
  - intros row Hrow. apply list_elem_of_singleton in Hrow. subst row.
    discriminate.
Defined.

End Tables.

(** ** Loading the table *)

Section Loading.

Context {cell : Type} (to_numeric : cell -> option Q).

Implicit Types (frame : list (Line cell)) (l : Line cell).

(** X14.  When the file is read into a frame that has both columns but
    none of whose lines has a numeric latency and a numeric uptime, every
    row is dropped: the table is empty, nothing is printed, and the
    handler then answers every request with the load-failure object. *)
Theorem unusable_lines_empty_table frame data :
  has_column line_latency frame = true ->
  has_column line_uptime frame = true ->
  (forall l, l ∈ frame ->
     (c ← line_latency l; to_numeric c) = None
     \/ (c ← line_uptime l; to_numeric c) = None) ->
  load to_numeric (Lines frame) = ([], [])
  /\ fst (get_metrics data (startup to_numeric (Lines frame)))
     = {[ "error" := PyStr error_message ]}.
Proof.
  intros Hlat Hup Hbad.
  assert (omap as_row (dropna (to_numeric_columns to_numeric frame)) = [])
    as E.
  { clear Hlat Hup. unfold dropna.
    induction frame as [|l frame IH]; [done|].
    cbn [to_numeric_columns map].
    rewrite filter_cons_False.
    - apply IH. intros l' Hl'. apply Hbad. by right.
    - cbn. intros [[x Hx] [y Hy]].
      destruct (Hbad l) as [E|E]; [by left|congruence|congruence]. }
  assert (load to_numeric (Lines frame) = ([], [])) as El
    by (unfold load; by rewrite Hlat, Hup, E).
  split; [done|].
  rewrite get_metrics_empty; [done|]. unfold startup. by rewrite El.
Qed.

End Loading.

Lemma unusable_lines_empty_table_witness :
  let frame : list (Line (option Q)) :=
    [mkLine "amer" (Some None) (Some (Some 1));
     mkLine "emea" (Some (Some 50)) None] in
  load id (Lines frame) = ([], [])
  /\ fst (get_metrics scenario_query (startup id (Lines frame)))
     = {[ "error" := PyStr error_message ]}.
Proof.
  apply (unusable_lines_empty_table id
           [mkLine "amer" (Some None) (Some (Some 1));
            mkLine "emea" (Some (Some 50)) None]
           scenario_query).
  - reflexivity.
  - reflexivity.
  - intros l Hl. rewrite !elem_of_cons in Hl.
    destruct Hl as [->|[->|Hl]]; [by left|by right|].
    by apply elem_of_nil in Hl.
Defined.

(** X15.  When reading the file raises an exception (the file is missing,
    or anything else goes wrong), the module still loads: one line is
    printed, the table is empty, and every request is handled as a load
    failure. *)
Theorem failed_read_degrades {cell : Type} (to_numeric : cell -> option Q)
  (src : source cell) (data : RequestBody) :
  (forall frame, src <> Lines frame) ->
  fst (load to_numeric src) = []
  /\ length (snd (load to_numeric src)) = 1%nat
  /\ fst (get_metrics data (startup to_numeric src))
     = {[ "error" := PyStr error_message ]}.
Proof.
  intros Hsrc.
  assert (fst (load to_numeric src) = []
          /\ length (snd (load to_numeric src)) = 1%nat) as [E1 E2].
  { destruct src as [|e|frame]; [done|done|]. by destruct (Hsrc frame). }
  split; [done|]. split; [done|].
  rewrite get_metrics_empty; [done|]. unfold startup. by rewrite E1.
Qed.

Lemma failed_read_degrades_witness :
  fst (load (@id (option Q)) Missing) = []
  /\ length (snd (load (@id (option Q)) Missing)) = 1%nat
  /\ fst (get_metrics scenario_query (startup (@id (option Q)) Missing))
     = {[ "error" := PyStr error_message ]}.
Proof.
  apply (failed_read_degrades (@id (option Q)) Missing scenario_query).
  discriminate.
Defined.
